(** * Car price estimator: the feature-alignment adapter of [car_price_app.py]

    Shallow embedding of [src/car_price_app.py] (the Streamlit app) and of
    its notebook checkpoint [src/.ipynb_checkpoints/car_price_app-checkpoint.py].

    Modelling choices:
    - a single-row pandas DataFrame is an association list from column name
      to cell value, in column order;
    - Python floats are rationals [Q] for finite values, with the three
      non-finite IEEE values that pandas division can produce;
    - the Streamlit page is a trace of events (rendered messages and calls
      of [model.predict]); code that may raise runs in a small state and
      exception monad over that trace;
    - the model artifact is a record: its optional [feature_names_in_]
      attribute ([None] is the [AttributeError] case) and its [predict]. *)

From Stdlib Require Import ZArith QArith List String Ascii Bool Lia.
From Stdlib Require Import Sorting.Sorted Sorting.Permutation.
Import ListNotations.
Open Scope string_scope.

(** ** Values *)

(** A pandas float64 cell: finite, or one of the non-finite values. *)
Inductive pyfloat :=
| Fin (q : Q)
| PInf
| NInf
| NaN.

(** A DataFrame cell: int64, float64, bool (what [get_dummies] yields),
    object string, or [None]. *)
Inductive value :=
| VInt (z : Z)
| VFloat (f : pyfloat)
| VBool (b : bool)
| VStr (s : string)
| VNone.

(** Python's [==] between a cell and an integer ([True == 1],
    [False == 0]). *)
Definition py_eq_int (v : value) (n : Z) : bool :=
  match v with
  | VInt z => Z.eqb z n
  | VFloat (Fin q) => Qeq_bool q (inject_Z n)
  | VBool b => Z.eqb (if b then 1 else 0)%Z n
  | _ => false
  end.

(** Element-wise [Series / Series] as pandas computes it: no exception on
    a zero divisor, IEEE infinities or NaN instead. *)
Definition series_div (num den : value) : value :=
  let as_q v := match v with
                 | VInt z => Some (inject_Z z)
                 | VFloat (Fin q) => Some q
                 | VBool b => Some (if b then 1 else 0)%Q
                 | _ => None
                 end in
  match as_q num, as_q den with
  | Some p, Some d =>
      if Qeq_bool d 0 then
        if Qlt_le_dec 0 p then VFloat PInf
        else if Qeq_bool p 0 then VFloat NaN
        else VFloat NInf
      else VFloat (Fin (p / d))
  | _, _ => VFloat NaN
  end.

(** Integer [Series - int] / [int - Series]. *)
Definition int_sub (a : Z) (v : value) : value :=
  match v with
  | VInt z => VInt (a - z)
  | _ => VFloat NaN
  end.

(** ** Single-row DataFrames *)

Definition row := list (string * value).

(** [df[c]] lookup (first column of that name). *)
Fixpoint row_get (r : row) (c : string) : option value :=
  match r with
  | [] => None
  | (c', v) :: r' => if String.eqb c c' then Some v else row_get r' c
  end.

(** [df[c] = v]: overwrite an existing column in place, else append. *)
Fixpoint row_set (r : row) (c : string) (v : value) : row :=
  match r with
  | [] => [(c, v)]
  | (c', v') :: r' =>
      if String.eqb c c' then (c', v) :: r' else (c', v') :: row_set r' c v
  end.

Definition columns (r : row) : list string := map fst r.

(** [pd.get_dummies(df)] on one row (default arguments): the columns of
    object dtype are encoded, the others kept in place and order; for each
    encoded column in order, one indicator [<col>_<value>] per distinct
    non-null value, here the single value of the row, set to [True]. *)
Definition is_object (v : value) : bool :=
  match v with VStr _ | VNone => true | _ => false end.

Definition dummies_of (c : string) (v : value) : row :=
  match v with
  | VStr s => [(c ++ "_" ++ s, VBool true)]
  | _ => []
  end.

Definition get_dummies (r : row) : row :=
  (filter (fun cv => negb (is_object (snd cv))) r
   ++ flat_map (fun cv => if is_object (snd cv) then dummies_of (fst cv) (snd cv)
                          else []) r)%list.

(** ** Exceptions and the Streamlit page *)

(** A raised exception: its class name and [str(e)]. *)
Record exn := mkExn { exn_class : string; exn_msg : string }.

Inductive result (A : Type) :=
| Ok (a : A)
| Raise (e : exn).
Arguments Ok {A} a.
Arguments Raise {A} e.

Fixpoint nodupb (l : list string) : bool :=
  match l with
  | [] => true
  | x :: l' => negb (existsb (String.eqb x) l') && nodupb l'
  end.

Fixpoint list_string_eqb (l1 l2 : list string) : bool :=
  match l1, l2 with
  | [], [] => true
  | x :: l1', y :: l2' => String.eqb x y && list_string_eqb l1' l2'
  | _, _ => false
  end.

(** [df.reindex(columns=cols, fill_value=0)]: the columns of [cols] in
    order, each taken from [df] when present, else the int [0].  As in
    pandas, a frame whose columns hold a duplicate label can only be
    reindexed to its own columns; otherwise it raises. *)
Definition reindex_cells (r : row) (cols : list string) : row :=
  map (fun c => (c, match row_get r c with
                    | Some v => v
                    | None => VInt 0
                    end)) cols.

Definition reindex (r : row) (cols : list string) : result row :=
  if nodupb (columns r) then Ok (reindex_cells r cols)
  else if list_string_eqb (columns r) cols then Ok r
  else Raise (mkExn "ValueError" "cannot reindex on an axis with duplicate labels").

(** What the page shows or does. *)
Inductive event :=
| StError (s : string)
| StWarning (s : string)
| StSuccess (price : Q)
| StWrite (label : string) (v : row)
| StWriteCols (label : string) (cs : list string)
| PredictCall (r : row).

Definition trace := list event.

(** State (the page so far) and exceptions. *)
Definition M (A : Type) := trace -> trace * result A.

Definition ret {A} (a : A) : M A := fun t => (t, Ok a).
Definition bind {A B} (m : M A) (k : A -> M B) : M B :=
  fun t => match m t with
           | (t', Ok a) => k a t'
           | (t', Raise e) => (t', Raise e)
           end.
Definition raise {A} (e : exn) : M A := fun t => (t, Raise e).
Definition emit (ev : event) : M unit := fun t => ((t ++ [ev])%list, Ok tt).

(** [try: body except Exception as e: handler e] *)
Definition try_except {A} (body : M A) (handler : exn -> M A) : M A :=
  fun t => match body t with
           | (t', Ok a) => (t', Ok a)
           | (t', Raise e) => handler e t'
           end.

Notation "x <- m ;; k" := (bind m (fun x => k))
  (at level 61, m at next level, right associativity).
Notation "m ;;; k" := (bind m (fun _ => k))
  (at level 61, right associativity).

(** ** The model artifact *)

Record model := mkModel {
  model_class : string;
  (** [None]: the estimator has no [feature_names_in_] attribute. *)
  feature_names_in_ : option (list string);
  (** [model.predict(df)[0]] for a one-row frame. *)
  predict : row -> result Q
}.

(** The [AttributeError] Python raises on [model.feature_names_in_]. *)
Definition attr_error (m : model) : exn :=
  mkExn "AttributeError"
    ("'" ++ model_class m ++ "' object has no attribute 'feature_names_in_'").

Definition get_feature_names (m : model) : M (list string) :=
  match feature_names_in_ m with
  | Some cs => ret cs
  | None => raise (attr_error m)
  end.

Definition lift {A} (x : result A) : M A :=
  match x with
  | Ok a => ret a
  | Raise e => raise e
  end.

Definition call_predict (m : model) (r : row) : M Q :=
  emit (PredictCall r) ;;; lift (predict m r).

(** ** Clock: [datetime.now()]

    Streamlit re-executes the whole script on every interaction, so the
    module-level [CURRENT_YEAR = datetime.now().year] is read anew on each
    request: the script run is parameterised by the clock reading. *)
Record datetime := mkDatetime {
  dt_year : Z; dt_month : Z; dt_day : Z;
  dt_hour : Z; dt_minute : Z; dt_second : Z
}.

Definition CURRENT_YEAR (now : datetime) : Z := dt_year now.

(** ** [extract_brands_from_model] *)

Definition brand_prefix : string := "Brand_".

(** Python [s.replace(old, "")] for a non-empty [old]: every
    non-overlapping occurrence, scanned left to right, is removed.  The
    fuel [length s] bounds the number of scanning steps. *)
Fixpoint remove_all_fuel (fuel : nat) (old s : string) : string :=
  match fuel with
  | O => s
  | S fuel' =>
      match s with
      | EmptyString => EmptyString
      | String c s' =>
          if String.prefix old s
          then remove_all_fuel fuel'
                 old (substring (String.length old)
                        (String.length s - String.length old) s)
          else String c (remove_all_fuel fuel' old s')
      end
  end.

Definition py_replace_empty (old s : string) : string :=
  remove_all_fuel (String.length s) old s.

(** Python [sorted] on strings (insertion sort, stable): strings are
    compared character by character, as Python compares code points. *)
Fixpoint insert_sorted (x : string) (l : list string) : list string :=
  match l with
  | [] => [x]
  | y :: l' => if String.ltb x y then x :: y :: l' else y :: insert_sorted x l'
  end.

Fixpoint py_sorted (l : list string) : list string :=
  match l with
  | [] => []
  | x :: l' => insert_sorted x (py_sorted l')
  end.

Definition default_brands : list string :=
  ["Maruti"; "Hyundai"; "Honda"; "Toyota"; "Mercedes-Benz"; "Volkswagen";
   "Ford"; "Mahindra"; "BMW"; "Audi"; "Tata"].

(** The pure part of the [try] block. *)
Definition brands_of_features (model_features : list string) : list string :=
  let brand_features := filter (String.prefix brand_prefix) model_features in
  let brands := map (py_replace_empty brand_prefix) brand_features in
  py_sorted brands.

Definition extract_brands_from_model (m : model) : M (list string) :=
  try_except
    (model_features <- get_feature_names m ;;
     ret (brands_of_features model_features))
    (fun e =>
       if String.eqb (exn_class e) "AttributeError"
       then emit (StWarning "Could not extract brands automatically. Using default list.") ;;;
            ret default_brands
       else raise e).

(** ** Input widgets *)

(** [st.number_input(label, min_value, max_value, value)]: the widget only
    ever returns a value in [[min_value, max_value]]. *)
Record number_input := mkNumberInput {
  ni_label : string; ni_min : Q; ni_max : Q; ni_value : Q
}.

Definition ni_admits (w : number_input) (v : Q) : bool :=
  Qle_bool (ni_min w) v && Qle_bool v (ni_max w).

Definition year_input (cy : Z) := mkNumberInput "Year" (inject_Z 1990) (inject_Z cy) (inject_Z 2015).
Definition km_input := mkNumberInput "Kilometers" (inject_Z 0) (inject_Z 500000) (inject_Z 50000).
Definition mileage_input := mkNumberInput "Mileage (kmpl)" (inject_Z 5) (inject_Z 50) (inject_Z 18).
Definition engine_input := mkNumberInput "Engine CC" (inject_Z 600) (inject_Z 6000) (inject_Z 1500).
Definition power_input := mkNumberInput "Power (BHP)" (inject_Z 20) (inject_Z 800) (inject_Z 100).
Definition seats_input := mkNumberInput "Seats" (inject_Z 2) (inject_Z 10) (inject_Z 5).

Definition fuel_options := ["Petrol"; "Diesel"; "CNG"; "LPG"; "Electric"].
Definition transmission_options := ["Manual"; "Automatic"].
Definition owner_options := ["First"; "Second"; "Third"; "Fourth & Above"].

(** [st.selectbox(label, options)]: an element of [options], or [None]
    when [options] is empty. *)
Definition sb_admits (options : list string) (v : option string) : bool :=
  match v with
  | None => match options with [] => true | _ => false end
  | Some s => existsb (String.eqb s) options
  end.

(** The values the user entered through the widgets of [main]. *)
Record form := mkForm {
  brand : option string;
  year : Z;
  km_driven : Z;
  fuel_type : string;
  transmission : string;
  owner_type : string;
  mileage : Q;
  engine_cc : Z;
  power_bhp : Q;
  seats : Z
}.

(** The form could have been produced by the widgets of [main]. *)
Definition collected (cy : Z) (available_brands : list string) (f : form) : bool :=
  sb_admits available_brands (brand f)
  && ni_admits (year_input cy) (inject_Z (year f))
  && ni_admits km_input (inject_Z (km_driven f))
  && sb_admits fuel_options (Some (fuel_type f))
  && sb_admits transmission_options (Some (transmission f))
  && sb_admits owner_options (Some (owner_type f))
  && ni_admits mileage_input (mileage f)
  && ni_admits engine_input (inject_Z (engine_cc f))
  && ni_admits power_input (power_bhp f)
  && ni_admits seats_input (inject_Z (seats f)).

(** Every widget left at its default. *)
Definition default_form (cy : Z) (available_brands : list string) : form :=
  mkForm (hd_error available_brands) 2015 50000 "Petrol" "Manual" "First"
    (inject_Z 18) 1500 (inject_Z 100) 5.

(** ** [main]: the preprocessing adapter and the prediction *)

(** [df[c]]; the columns read below are always present. *)
Definition col (r : row) (c : string) : value :=
  match row_get r c with Some v => v | None => VNone end.

(** Step A: [raw_data = pd.DataFrame({...})]. *)
Definition raw_data (f : form) : row :=
  [("Year", VInt (year f));
   ("Kilometers_Driven", VInt (km_driven f));
   ("Fuel_Type", VStr (fuel_type f));
   ("Transmission", VStr (transmission f));
   ("Owner_Type", VStr (owner_type f));
   ("Mileage", VFloat (Fin (mileage f)));
   ("Engine", VInt (engine_cc f));
   ("Power", VFloat (Fin (power_bhp f)));
   ("Seats", VInt (seats f));
   ("Brand", match brand f with Some b => VStr b | None => VNone end)].

(** Steps B and C: [BHP_per_CC] and [Car_Age]. *)
Definition derive (cy : Z) (f : form) : row :=
  let r0 := raw_data f in
  let r1 := row_set r0 "BHP_per_CC" (series_div (col r0 "Power") (col r0 "Engine")) in
  row_set r1 "Car_Age" (int_sub cy (col r1 "Year")).

(** Steps D and E: one-hot encoding, then alignment with the model's
    columns. *)
Definition align (cy : Z) (f : form) (model_columns : list string) : result row :=
  reindex (get_dummies (derive cy f)) model_columns.

Definition processing_tip : string :=
  "Tip: This error usually means the input data structure doesn't match the training data.".

(** The body of [if st.button("Calculate Price"): try: ... except ...]. *)
Definition calculate_price (cy : Z) (m : model) (f : form) : M unit :=
  try_except
    (let data_encoded := get_dummies (derive cy f) in
     model_columns <- get_feature_names m ;;
     data_final <- lift (reindex data_encoded model_columns) ;;
     prediction <- call_predict m data_final ;;
     emit (StSuccess prediction) ;;;
     emit (StWriteCols "Aligned Features:" (columns data_final)) ;;;
     emit (StWrite "Data sent to model:" data_final))
    (fun e =>
       emit (StError ("Processing Error: " ++ exn_msg e)) ;;;
       emit (StWarning processing_tip)).

(** One run of the script: [loaded] is the cached [load_model()] result
    ([None] stops the script), [choose] is what the user picks in the
    widgets given the brand list, [clicked] whether the button was
    pressed in this run. *)
Definition main (now : datetime) (loaded : option model)
    (choose : list string -> form) (clicked : bool) : M unit :=
  match loaded with
  | None => ret tt
  | Some m =>
      available_brands <- extract_brands_from_model m ;;
      let f := choose available_brands in
      if clicked then calculate_price (CURRENT_YEAR now) m f else ret tt
  end.

(** The page rendered by one run, from an empty page. *)
Definition run (now : datetime) (loaded : option model)
    (choose : list string -> form) (clicked : bool) : trace :=
  fst (main now loaded choose clicked []).

(** The calls of [model.predict] in a page. *)
Definition predict_calls (t : trace) : list row :=
  flat_map (fun ev => match ev with PredictCall r => [r] | _ => [] end) t.

(** The prices shown in a page. *)
Definition shown_prices (t : trace) : list Q :=
  flat_map (fun ev => match ev with StSuccess p => [p] | _ => [] end) t.

(** The categorical fields of the form, as named in [raw_data], and the
    value the user selected for each. *)
Definition categorical_fields : list string :=
  ["Fuel_Type"; "Transmission"; "Owner_Type"; "Brand"].

Definition selected (f : form) (fld : string) : option string :=
  if String.eqb fld "Fuel_Type" then Some (fuel_type f)
  else if String.eqb fld "Transmission" then Some (transmission f)
  else if String.eqb fld "Owner_Type" then Some (owner_type f)
  else if String.eqb fld "Brand" then brand f
  else None.

(** The indicator column [<field>_<value>] that [get_dummies] names. *)
Definition indicator (fld v : string) : string := fld ++ "_" ++ v.

(** The error messages shown in a page. *)
Definition errors_shown (t : trace) : list string :=
  flat_map (fun ev => match ev with StError s => [s] | _ => [] end) t.

(** Brand extraction as the claim words it: the leading ["Brand_"] of each
    brand feature removed (and nothing else), then sorted. *)
Definition brands_by_prefix_removal (model_features : list string) : list string :=
  py_sorted
    (map (fun f => substring (String.length brand_prefix)
                     (String.length f - String.length brand_prefix) f)
       (filter (String.prefix brand_prefix) model_features)).

(** ** The checkpoint variant *)

(** [car_age = 2025 - year] in [car_price_app-checkpoint.py]. *)
Definition ckpt_car_age (year : Z) : Z := 2025 - year.

(** [occurs pat s]: [pat] occurs somewhere in [s] ([pat in s]). *)
Fixpoint occurs (pat s : string) : bool :=
  match s with
  | EmptyString => String.prefix pat s
  | String _ s' => String.prefix pat s || occurs pat s'
  end.

(** ** [load_model] and the whole script *)

Definition MODEL_FILENAME : string := "car_price_model_rf.pkl".

(** [load_model()]: [file_exists] is [os.path.exists(MODEL_FILENAME)],
    [joblib_load] the outcome of [joblib.load(MODEL_FILENAME)].  This is
    the run that executes the body; [st.cache_resource] hands later runs
    the stored result. *)
Definition load_model (file_exists : bool) (joblib_load : result model)
    : M (option model) :=
  if negb file_exists then
    emit (StError ("Critical Error: '" ++ MODEL_FILENAME ++ "' not found.")) ;;;
    ret None
  else
    try_except
      (model <- lift joblib_load ;; ret (Some model))
      (fun e => emit (StError ("Error loading model: " ++ exn_msg e)) ;;; ret None).

(** One run of the script, model loading included ([st.title] and other
    static text are not recorded). *)
Definition run_script (now : datetime) (file_exists : bool) (joblib_load : result model)
    (choose : list string -> form) (clicked : bool) : trace :=
  fst ((loaded <- load_model file_exists joblib_load ;;
        main now loaded choose clicked) []).

(** ** The checkpoint app [car_price_app-checkpoint.py] *)

Record ckpt_form := mkCkptForm {
  c_year : Z; c_km_driven : Z; c_fuel_type : string; c_transmission : string;
  c_owner_type : string; c_mileage : Q; c_engine_cc : Z; c_power_bhp : Q;
  c_seats : Z; c_tax : Q
}.

Definition ckpt_year_input := mkNumberInput "Year of Manufacture" (inject_Z 1990) (inject_Z 2025) (inject_Z 2015).
Definition ckpt_km_input := mkNumberInput "Kilometers Driven" (inject_Z 0) (inject_Z 500000) (inject_Z 50000).
Definition ckpt_mileage_input := mkNumberInput "Mileage (kmpl or km/kg)" (inject_Z 5) (inject_Z 40) (inject_Z 18).
Definition ckpt_engine_input := mkNumberInput "Engine CC" (inject_Z 600) (inject_Z 5000) (inject_Z 1500).
Definition ckpt_power_input := mkNumberInput "Power (BHP)" (inject_Z 20) (inject_Z 600) (inject_Z 100).
Definition ckpt_seats_input := mkNumberInput "Seats" (inject_Z 2) (inject_Z 10) (inject_Z 5).
Definition ckpt_tax_input := mkNumberInput "Tax (in %)" (inject_Z 0) (inject_Z 100) (inject_Z 10).

Definition ckpt_collected (f : ckpt_form) : bool :=
  ni_admits ckpt_year_input (inject_Z (c_year f))
  && ni_admits ckpt_km_input (inject_Z (c_km_driven f))
  && sb_admits fuel_options (Some (c_fuel_type f))
  && sb_admits transmission_options (Some (c_transmission f))
  && sb_admits owner_options (Some (c_owner_type f))
  && ni_admits ckpt_mileage_input (c_mileage f)
  && ni_admits ckpt_engine_input (inject_Z (c_engine_cc f))
  && ni_admits ckpt_power_input (c_power_bhp f)
  && ni_admits ckpt_seats_input (inject_Z (c_seats f))
  && ni_admits ckpt_tax_input (c_tax f).

(** [input_data = pd.DataFrame({...})] with [car_age = 2025 - year]. *)
Definition ckpt_input_data (f : ckpt_form) : row :=
  [("Year", VInt (c_year f));
   ("Kilometers_Driven", VInt (c_km_driven f));
   ("Fuel_Type", VStr (c_fuel_type f));
   ("Transmission", VStr (c_transmission f));
   ("Owner_Type", VStr (c_owner_type f));
   ("Mileage_num", VFloat (Fin (c_mileage f)));
   ("Engine_num", VInt (c_engine_cc f));
   ("Power_num", VFloat (Fin (c_power_bhp f)));
   ("Seats", VInt (c_seats f));
   ("Tax", VFloat (Fin (c_tax f)));
   ("Car_Age", VInt (ckpt_car_age (c_year f)))].

(** [if st.button("Predict Price"): try: ... except Exception as e: ...] *)
Definition ckpt_predict_price (m : model) (f : ckpt_form) : M unit :=
  try_except
    (prediction <- call_predict m (ckpt_input_data f) ;;
     emit (StSuccess prediction))
    (fun e => emit (StError ("Prediction failed: " ++ exn_msg e))).

(** ** Sample data *)

Definition sample_form : form :=
  mkForm (Some "Maruti") 2018 40000 "Diesel" "Manual" "First"
    (inject_Z 20) 1200 (inject_Z 85) 5.

Definition sample_schema : list string :=
  ["Year"; "Kilometers_Driven"; "Mileage"; "Engine"; "Power"; "Seats";
   "BHP_per_CC"; "Car_Age"; "Fuel_Type_Diesel"; "Fuel_Type_Petrol";
   "Transmission_Manual"; "Owner_Type_First"; "Brand_Lexus"; "Brand_Maruti"].

Definition sample_model : model :=
  mkModel "RandomForestRegressor" (Some sample_schema)
    (fun r => Ok (match row_get r "Car_Age" with Some (VInt a) => inject_Z a | _ => 0 end)).

Definition now_2026 : datetime := mkDatetime 2026 10 19 12 0 0.

(** The last second of 2026 and the first of 2027. *)
Definition new_years_eve : datetime := mkDatetime 2026 12 31 23 59 59.
Definition new_years_day : datetime := mkDatetime 2027 1 1 0 0 0.

(** A form identical to [sample_form] but for its mileage, 45 kmpl. *)
Definition form_mileage_45 : form :=
  mkForm (Some "Maruti") 2018 40000 "Diesel" "Manual" "First"
    (inject_Z 45) 1200 (inject_Z 85) 5.

(** Trained columns with a brand whose own name holds ["Brand_"]. *)
Definition features_brand_in_name : list string :=
  ["Year"; "Car_Age"; "Brand_Audi"; "Brand_Brand_X"].

(** A model saved without [feature_names_in_]. *)
Definition model_without_names : model :=
  mkModel "RandomForestRegressor" None (fun _ => Ok 0).

(** A model whose [predict] raises the given exception. *)
Definition failing_model (e : exn) : model :=
  mkModel "RandomForestRegressor" (Some sample_schema) (fun _ => Raise e).

Example sample_align :
  align 2026 sample_form sample_schema = Ok
  [("Year", VInt 2018); ("Kilometers_Driven", VInt 40000);
   ("Mileage", VFloat (Fin (inject_Z 20))); ("Engine", VInt 1200);
   ("Power", VFloat (Fin (inject_Z 85))); ("Seats", VInt 5);
   ("BHP_per_CC", VFloat (Fin (inject_Z 85 / inject_Z 1200)));
   ("Car_Age", VInt 8); ("Fuel_Type_Diesel", VBool true);
   ("Fuel_Type_Petrol", VInt 0); ("Transmission_Manual", VBool true);
   ("Owner_Type_First", VBool true); ("Brand_Lexus", VInt 0);
   ("Brand_Maruti", VBool true)]%list.
Proof. reflexivity. Qed.

Example sample_brands :
  brands_of_features sample_schema = ["Lexus"; "Maruti"].
Proof. reflexivity. Qed.

(** ** Lemmas on the DataFrame operations *)

Lemma columns_reindex_cells (r : row) (cols : list string) :
  columns (reindex_cells r cols) = cols.
Proof.
  unfold columns, reindex_cells. rewrite map_map. simpl. apply map_id.
Qed.

Lemma row_get_reindex_cells_in (r : row) (cols : list string) (c : string) :
  In c cols ->
  row_get (reindex_cells r cols) c =
  Some (match row_get r c with Some v => v | None => VInt 0 end).
Proof.
  induction cols as [|c' cols IH]; simpl; [tauto|].
  intros [<- | Hin].
  - rewrite String.eqb_refl. reflexivity.
  - destruct (String.eqb_spec c c') as [-> | _]; [reflexivity|].
    apply IH, Hin.
Qed.

Lemma row_get_reindex_cells_notin (r : row) (cols : list string) (c : string) :
  ~ In c cols -> row_get (reindex_cells r cols) c = None.
Proof.
  induction cols as [|c' cols IH]; simpl; [reflexivity|].
  intros Hn. destruct (String.eqb_spec c c') as [-> | _]; [tauto|].
  apply IH. tauto.
Qed.

Lemma reindex_cells_ext (r r' : row) (cols : list string) :
  (forall c, In c cols -> row_get r c = row_get r' c) ->
  reindex_cells r cols = reindex_cells r' cols.
Proof.
  unfold reindex_cells. intros H. apply map_ext_in.
  intros c Hc. rewrite (H c Hc). reflexivity.
Qed.

Lemma reindex_unique (r : row) (cols : list string) :
  nodupb (columns r) = true -> reindex r cols = Ok (reindex_cells r cols).
Proof. unfold reindex. intros ->. reflexivity. Qed.

Lemma series_div_not_object (a b : value) : is_object (series_div a b) = false.
Proof.
  unfold series_div.
  destruct (match a with VInt z => Some (inject_Z z) | VFloat (Fin q) => Some q
            | VBool b0 => Some (if b0 then 1 else 0)%Q | _ => None end);
  destruct (match b with VInt z => Some (inject_Z z) | VFloat (Fin q) => Some q
            | VBool b0 => Some (if b0 then 1 else 0)%Q | _ => None end);
  try reflexivity.
  destruct (Qeq_bool _ 0); [|reflexivity].
  destruct (Qlt_le_dec _ _); [reflexivity|].
  destruct (Qeq_bool _ 0); reflexivity.
Qed.

(** The frame built in steps A to D, spelled out. *)
Lemma get_dummies_derive (cy : Z) (f : form) :
  get_dummies (derive cy f) =
  app [("Year", VInt (year f));
    ("Kilometers_Driven", VInt (km_driven f));
    ("Mileage", VFloat (Fin (mileage f)));
    ("Engine", VInt (engine_cc f));
    ("Power", VFloat (Fin (power_bhp f)));
    ("Seats", VInt (seats f));
    ("BHP_per_CC", series_div (VFloat (Fin (power_bhp f))) (VInt (engine_cc f)));
    ("Car_Age", VInt (cy - year f));
    ("Fuel_Type_" ++ fuel_type f, VBool true);
    ("Transmission_" ++ transmission f, VBool true);
    ("Owner_Type_" ++ owner_type f, VBool true)]
   (match brand f with
    | Some b => [("Brand_" ++ b, VBool true)]
    | None => []
    end).
Proof.
  unfold get_dummies, derive, raw_data, col.
  destruct (brand f); cbn -[series_div]; rewrite series_div_not_object;
    reflexivity.
Qed.

(** The one-hot encoded frame never holds a duplicate label, so its
    reindexing never raises. *)
Lemma get_dummies_derive_unique (cy : Z) (f : form) :
  nodupb (columns (get_dummies (derive cy f))) = true.
Proof.
  rewrite get_dummies_derive. destruct (brand f); reflexivity.
Qed.

Lemma align_ok (cy : Z) (f : form) (schema : list string) :
  align cy f schema = Ok (reindex_cells (get_dummies (derive cy f)) schema).
Proof. apply reindex_unique, get_dummies_derive_unique. Qed.

Lemma extract_brands_present (m : model) (fs : list string) (t : trace) :
  feature_names_in_ m = Some fs ->
  extract_brands_from_model m t = (t, Ok (brands_of_features fs)).
Proof.
  intros H. unfold extract_brands_from_model, try_except, bind, get_feature_names.
  rewrite H. reflexivity.
Qed.

Lemma extract_brands_absent (m : model) (t : trace) :
  feature_names_in_ m = None ->
  extract_brands_from_model m t =
  ((t ++ [StWarning "Could not extract brands automatically. Using default list."])%list,
   Ok default_brands).
Proof.
  intros H. unfold extract_brands_from_model, try_except, bind, get_feature_names.
  rewrite H. reflexivity.
Qed.

(** [calculate_price] for a model exposing its columns: [predict] is
    called once, on the aligned row. *)
Lemma calculate_price_present (cy : Z) (m : model) (f : form)
    (schema : list string) (t : trace) :
  feature_names_in_ m = Some schema ->
  let r := reindex_cells (get_dummies (derive cy f)) schema in
  calculate_price cy m f t =
  match predict m r with
  | Ok p => ((t ++ [PredictCall r] ++ [StSuccess p]
               ++ [StWriteCols "Aligned Features:" (columns r)]
               ++ [StWrite "Data sent to model:" r])%list, Ok tt)
  | Raise e => ((t ++ [PredictCall r] ++ [StError ("Processing Error: " ++ exn_msg e)]
                 ++ [StWarning processing_tip])%list, Ok tt)
  end.
Proof.
  intros H r. unfold calculate_price, try_except, bind, get_feature_names.
  rewrite H. unfold ret at 1.
  rewrite (reindex_unique _ _ (get_dummies_derive_unique cy f)).
  unfold lift at 1, ret at 1, call_predict, bind, emit. fold r.
  destruct (predict m r) as [p | e]; simpl; rewrite <- !app_assoc; reflexivity.
Qed.

(** C1: whenever the model exposes its expected columns [schema], the row
    handed to [model.predict] (the only call of it in the request) is the
    aligned row of the request, and its columns are exactly [schema], in
    the same order and number; this holds for every entered form. *)
Theorem aligned_row_matches_schema (now : datetime) (m : model)
    (schema : list string) (choose : list string -> form) :
  feature_names_in_ m = Some schema ->
  exists r,
    align (CURRENT_YEAR now) (choose (brands_of_features schema)) schema = Ok r /\
    predict_calls (run now (Some m) choose true) = [r] /\
    columns r = schema /\ List.length r = List.length schema.
Proof.
  intros H.
  exists (reindex_cells (get_dummies (derive (CURRENT_YEAR now)
                                        (choose (brands_of_features schema)))) schema).
  split; [apply align_ok|].
  unfold run, main, bind at 1. rewrite (extract_brands_present _ _ _ H).
  rewrite (calculate_price_present _ _ _ _ _ H).
  split; [|split; [apply columns_reindex_cells | unfold reindex_cells; apply length_map]].
  destruct (predict m _); reflexivity.
Qed.

Lemma aligned_row_matches_schema_witness :
  feature_names_in_ sample_model = Some sample_schema /\
  exists r,
    align (CURRENT_YEAR now_2026) (default_form 2026 (brands_of_features sample_schema))
      sample_schema = Ok r /\
    predict_calls (run now_2026 (Some sample_model) (default_form 2026) true) = [r] /\
    columns r = sample_schema /\ List.length r = List.length sample_schema.
Proof.
  split; [reflexivity|].
  apply (aligned_row_matches_schema now_2026 sample_model sample_schema (default_form 2026)).
  reflexivity.
Defined.

(** C4: reindexing the candidate frame of a request against the model's
    columns never fails; each column of [schema] takes the candidate's
    value when the candidate has that column and [0] otherwise; no column
    outside [schema] appears in the result; and any candidate (with
    distinct labels) agreeing on the columns of [schema] gives the same
    result, so columns outside [schema] have no effect. *)
Theorem reindex_fills_and_drops (cy : Z) (f : form) (schema : list string) :
  let cand := get_dummies (derive cy f) in
  exists aligned,
    reindex cand schema = Ok aligned /\
    columns aligned = schema /\
    (forall c, In c schema ->
       row_get aligned c = Some (match row_get cand c with Some v => v | None => VInt 0 end)) /\
    (forall c, ~ In c schema -> row_get aligned c = None) /\
    (forall cand', nodupb (columns cand') = true ->
       (forall c, In c schema -> row_get cand' c = row_get cand c) ->
       reindex cand' schema = Ok aligned).
Proof.
  intros cand. exists (reindex_cells cand schema).
  split; [apply reindex_unique, get_dummies_derive_unique|].
  split; [apply columns_reindex_cells|].
  split; [intros c; apply row_get_reindex_cells_in|].
  split; [intros c; apply row_get_reindex_cells_notin|].
  intros cand' Hu Hagree. rewrite (reindex_unique _ _ Hu).
  f_equal. apply reindex_cells_ext, Hagree.
Qed.

(** C2: for each categorical field and each domain containing the selected
    value, when every indicator column [<field>_<value>] of the domain is
    in [schema], the aligned row has each of them; the selected value's
    indicator is the only one equal to 1, and every sibling equals 0. *)
Theorem one_hot_exactly_one (cy : Z) (f : form) (schema : list string)
    (fld sel : string) (dom : list string) :
  In fld categorical_fields ->
  selected f fld = Some sel ->
  In sel dom ->
  (forall v, In v dom -> In (indicator fld v) schema) ->
  exists aligned,
    align cy f schema = Ok aligned /\
    forall v, In v dom ->
      exists x, row_get aligned (indicator fld v) = Some x /\
                py_eq_int x 1 = String.eqb v sel /\
                (String.eqb v sel = false -> py_eq_int x 0 = true).
Proof.
  intros Hf Hsel _ Hfam.
  eexists; split; [apply align_ok|].
  intros v Hv. rewrite (row_get_reindex_cells_in _ _ _ (Hfam v Hv)).
  rewrite get_dummies_derive. unfold indicator.
  simpl in Hf; destruct Hf as [<-|[<-|[<-|[<-|[]]]]];
    unfold selected in Hsel; simpl in Hsel;
    [injection Hsel as E; rewrite E.. | rewrite Hsel];
    cbn -[series_div].
  all: destruct (String.eqb_spec v sel) as [<- | Hne].
  all: try rewrite String.eqb_refl.
  all: try (apply String.eqb_neq in Hne; rewrite Hne).
  all: try (destruct (brand f)); cbn.
  all: eexists; split; [reflexivity | split; [reflexivity | discriminate || reflexivity]].
Qed.

Lemma one_hot_exactly_one_witness :
  (In "Fuel_Type" categorical_fields /\
   selected sample_form "Fuel_Type" = Some "Diesel" /\
   In "Diesel" ["Diesel"; "Petrol"] /\
   (forall v, In v ["Diesel"; "Petrol"] -> In (indicator "Fuel_Type" v) sample_schema)) /\
  exists aligned,
    align 2026 sample_form sample_schema = Ok aligned /\
    forall v, In v ["Diesel"; "Petrol"] ->
      exists x, row_get aligned (indicator "Fuel_Type" v) = Some x /\
                py_eq_int x 1 = String.eqb v "Diesel" /\
                (String.eqb v "Diesel" = false -> py_eq_int x 0 = true).
Proof.
  assert (Hfam : forall v, In v ["Diesel"; "Petrol"] ->
                 In (indicator "Fuel_Type" v) sample_schema).
  { intros v [<- | [<- | []]]; simpl; tauto. }
  split; [split; [simpl; tauto | split; [reflexivity | split; [simpl; tauto | exact Hfam]]]|].
  apply (one_hot_exactly_one 2026 sample_form sample_schema "Fuel_Type" "Diesel"
           ["Diesel"; "Petrol"]); [simpl; tauto | reflexivity | simpl; tauto | exact Hfam].
Defined.

Lemma reindex_fills_and_drops_witness :
  let cand := get_dummies (derive 2026 sample_form) in
  exists aligned,
    reindex cand sample_schema = Ok aligned /\
    columns aligned = sample_schema /\
    (forall c, In c sample_schema ->
       row_get aligned c = Some (match row_get cand c with Some v => v | None => VInt 0 end)) /\
    (forall c, ~ In c sample_schema -> row_get aligned c = None) /\
    (forall cand', nodupb (columns cand') = true ->
       (forall c, In c sample_schema -> row_get cand' c = row_get cand c) ->
       reindex cand' sample_schema = Ok aligned).
Proof. apply (reindex_fills_and_drops 2026 sample_form sample_schema). Defined.

(** [BHP_per_CC] is [Power / Engine] computed by pandas, which never
    raises: with [Engine = 0] and a positive [Power] it is [+inf], with
    [Power = 0] it is NaN; with a nonzero [Engine] it is the finite
    quotient; and every [Engine] the widget admits is nonzero. *)
Lemma bhp_per_cc_division (cy : Z) (f : form) :
  (engine_cc f = 0%Z -> (0 < power_bhp f)%Q ->
     col (derive cy f) "BHP_per_CC" = VFloat PInf) /\
  (engine_cc f = 0%Z -> power_bhp f = 0%Q ->
     col (derive cy f) "BHP_per_CC" = VFloat NaN) /\
  (engine_cc f <> 0%Z ->
     col (derive cy f) "BHP_per_CC" = VFloat (Fin (power_bhp f / inject_Z (engine_cc f)))) /\
  (ni_admits engine_input (inject_Z (engine_cc f)) = true -> engine_cc f <> 0%Z).
Proof.
  unfold derive, col, raw_data. cbn -[series_div]. unfold series_div.
  split; [|split; [|split]].
  - intros -> Hp. simpl. destruct (Qlt_le_dec 0 (power_bhp f)); [reflexivity|].
    exfalso. apply (Qlt_not_le _ _ Hp q).
  - intros -> ->. reflexivity.
  - intros Hne. replace (Qeq_bool (inject_Z (engine_cc f)) 0) with false; [reflexivity|].
    symmetry. apply Bool.not_true_iff_false. intros Hq.
    apply Qeq_bool_iff in Hq. apply Hne.
    unfold Qeq in Hq. simpl in Hq. lia.
  - unfold ni_admits, engine_input. simpl. intros H E. rewrite E in H. discriminate.
Qed.

(** C5 (as the code does it): in [car_price_app.py] the row sent to the
    model has [Car_Age = CURRENT_YEAR - Year], where [CURRENT_YEAR] is the
    year of the clock read by the run serving the request; so
    [Year = current year] gives 0 and [Year = 1990] gives
    [current year - 1990].  The checkpoint variant computes [2025 - Year]
    with a fixed reference year. *)
Theorem car_age_reads_clock (now : datetime) (m : model) (schema : list string)
    (choose : list string -> form) :
  feature_names_in_ m = Some schema ->
  In "Car_Age" schema ->
  let f := choose (brands_of_features schema) in
  (exists r,
     predict_calls (run now (Some m) choose true) = [r] /\
     row_get r "Car_Age" = Some (VInt (dt_year now - year f)) /\
     (year f = dt_year now -> row_get r "Car_Age" = Some (VInt 0)) /\
     (year f = 1990%Z -> row_get r "Car_Age" = Some (VInt (dt_year now - 1990)))) /\
  (forall y, ckpt_car_age y = (2025 - y)%Z).
Proof.
  intros Hm Hin f. split; [|reflexivity].
  exists (reindex_cells (get_dummies (derive (CURRENT_YEAR now) f)) schema).
  assert (Hage : row_get (reindex_cells (get_dummies (derive (CURRENT_YEAR now) f)) schema)
                   "Car_Age" = Some (VInt (dt_year now - year f))).
  { rewrite (row_get_reindex_cells_in _ _ _ Hin), get_dummies_derive. reflexivity. }
  split.
  - unfold run, main, bind at 1. rewrite (extract_brands_present _ _ _ Hm).
    rewrite (calculate_price_present _ _ _ _ _ Hm). fold f.
    destruct (predict m _); reflexivity.
  - split; [exact Hage|]. rewrite Hage.
    split; intros E; rewrite E; do 2 f_equal; lia.
Qed.

Lemma car_age_reads_clock_witness :
  (feature_names_in_ sample_model = Some sample_schema /\ In "Car_Age" sample_schema) /\
  let f := default_form 2026 (brands_of_features sample_schema) in
  (exists r,
     predict_calls (run now_2026 (Some sample_model) (default_form 2026) true) = [r] /\
     row_get r "Car_Age" = Some (VInt (dt_year now_2026 - year f)) /\
     (year f = dt_year now_2026 -> row_get r "Car_Age" = Some (VInt 0)) /\
     (year f = 1990%Z -> row_get r "Car_Age" = Some (VInt (dt_year now_2026 - 1990)))) /\
  (forall y, ckpt_car_age y = (2025 - y)%Z).
Proof.
  split; [split; [reflexivity | simpl; tauto]|].
  apply (car_age_reads_clock now_2026 sample_model sample_schema (default_form 2026));
    [reflexivity | simpl; tauto].
Defined.

(** C5 counterexample: the checkpoint variant's age is not measured from
    the current year (in 2026, a 1990 car is given age 35). *)
Lemma checkpoint_car_age_fixed_year :
  ~ (forall now y, ckpt_car_age y = (dt_year now - y)%Z).
Proof.
  intros H. specialize (H now_2026 1990%Z). vm_compute in H. discriminate.
Qed.

(** C6 (as the code does it): for a model without [feature_names_in_],
    the brand list falls back with a warning, the access to
    [model.feature_names_in_] in the request raises [AttributeError], the
    generic handler shows ["Processing Error: " ++ str(e)] and the fixed
    input-structure tip, and [model.predict] is never called. *)
Theorem missing_feature_names_generic_error (now : datetime) (m : model)
    (choose : list string -> form) :
  feature_names_in_ m = None ->
  run now (Some m) choose true =
    [StWarning "Could not extract brands automatically. Using default list.";
     StError ("Processing Error: " ++ exn_msg (attr_error m));
     StWarning processing_tip] /\
  predict_calls (run now (Some m) choose true) = [].
Proof.
  intros H.
  assert (E : run now (Some m) choose true =
    [StWarning "Could not extract brands automatically. Using default list.";
     StError ("Processing Error: " ++ exn_msg (attr_error m));
     StWarning processing_tip]).
  { unfold run, main, bind at 1. rewrite (extract_brands_absent _ _ H).
    unfold calculate_price, try_except, bind, get_feature_names. rewrite H.
    reflexivity. }
  split; [exact E | rewrite E; reflexivity].
Qed.

Lemma missing_feature_names_generic_error_witness :
  feature_names_in_ model_without_names = None /\
  run now_2026 (Some model_without_names) (default_form 2026) true =
    [StWarning "Could not extract brands automatically. Using default list.";
     StError ("Processing Error: " ++ exn_msg (attr_error model_without_names));
     StWarning processing_tip] /\
  predict_calls (run now_2026 (Some model_without_names) (default_form 2026) true) = [].
Proof.
  split; [reflexivity|].
  apply (missing_feature_names_generic_error now_2026 model_without_names (default_form 2026)).
  reflexivity.
Defined.

(** C6 counterexample: the error shown when the model exposes no feature
    names is the very one shown when a model with feature names fails in
    [predict] with an exception of the same text; there is no distinct
    schema-unavailable condition. *)
Lemma missing_schema_not_distinguished :
  errors_shown (run now_2026 (Some model_without_names) (default_form 2026) true) =
  errors_shown (run now_2026
                  (Some (failing_model (attr_error model_without_names)))
                  (default_form 2026) true).
Proof. vm_compute. reflexivity. Qed.

(** C7 (as the code does it): the request's [try] block never lets an
    exception out, and its one [except Exception as e] handler shows
    exactly [str(e)] of the exception raised, with no class or other
    classification: a model without [feature_names_in_] gives
    ["Processing Error: " ++] the [AttributeError]'s text and the fixed
    tip, with no call of [predict]; otherwise the aligned row is sent to
    [predict] once, and its failure [e] gives ["Processing Error: " ++
    str(e)] and the tip, its success the price and the debug panel.  A run
    of the script never ends in an exception.  The checkpoint app's
    handler shows exactly ["Prediction failed: " ++ str(e)], without tip. *)
Theorem request_failures_caught (cy : Z) (m : model) (f : form) (t : trace) :
  calculate_price cy m f t =
    ((t ++ match feature_names_in_ m with
           | None => [StError ("Processing Error: " ++ exn_msg (attr_error m));
                      StWarning processing_tip]
           | Some schema =>
               let r := reindex_cells (get_dummies (derive cy f)) schema in
               match predict m r with
               | Ok p => [PredictCall r; StSuccess p;
                          StWriteCols "Aligned Features:" (columns r);
                          StWrite "Data sent to model:" r]
               | Raise e => [PredictCall r;
                             StError ("Processing Error: " ++ exn_msg e);
                             StWarning processing_tip]
               end
           end)%list, Ok tt) /\
  (forall now loaded choose clicked,
     snd (main now loaded choose clicked t) = Ok tt) /\
  (forall (cm : model) (cf : ckpt_form),
     ckpt_predict_price cm cf t =
       ((t ++ PredictCall (ckpt_input_data cf) ::
              match predict cm (ckpt_input_data cf) with
              | Ok p => [StSuccess p]
              | Raise e => [StError ("Prediction failed: " ++ exn_msg e)]
              end)%list, Ok tt)).
Proof.
  split; [|split].
  - destruct (feature_names_in_ m) as [schema|] eqn:Hm.
    + rewrite (calculate_price_present _ _ _ _ _ Hm). cbv zeta.
      destruct (predict m _); reflexivity.
    + unfold calculate_price, try_except, bind, get_feature_names. rewrite Hm.
      unfold raise, emit. rewrite <- app_assoc. reflexivity.
  - intros now [m'|] choose clicked; [|reflexivity].
    unfold main, bind at 1.
    destruct (feature_names_in_ m') as [schema|] eqn:Hm.
    + rewrite (extract_brands_present _ _ _ Hm). destruct clicked; [|reflexivity].
      rewrite (calculate_price_present _ _ _ _ _ Hm). destruct (predict m' _); reflexivity.
    + rewrite (extract_brands_absent _ _ Hm). destruct clicked; [|reflexivity].
      unfold calculate_price, try_except, bind, get_feature_names. rewrite Hm. reflexivity.
  - intros cm cf.
    unfold ckpt_predict_price, try_except, call_predict, bind, emit, lift.
    destruct (predict cm (ckpt_input_data cf)); unfold ret, raise;
      rewrite <- app_assoc; reflexivity.
Qed.

(** C7 counterexample: a [ValueError] and a [TypeError] raised by
    [predict] with the same text give the same page; the failure is not
    classified. *)
Lemma predict_failures_not_classified :
  run now_2026 (Some (failing_model (mkExn "ValueError" "could not convert")))
      (default_form 2026) true =
  run now_2026 (Some (failing_model (mkExn "TypeError" "could not convert")))
      (default_form 2026) true.
Proof. vm_compute. reflexivity. Qed.

(** C8 (as the code does it): the only outside state a run reads is the
    clock's year: two runs with the same model, the same choices and the
    same button state, at times of the same calendar year, render the
    same page, hence the same predicted price. *)
Theorem same_year_same_prediction (now1 now2 : datetime) (loaded : option model)
    (choose : list string -> form) (clicked : bool) :
  dt_year now1 = dt_year now2 ->
  run now1 loaded choose clicked = run now2 loaded choose clicked /\
  shown_prices (run now1 loaded choose clicked) =
  shown_prices (run now2 loaded choose clicked).
Proof.
  intros H.
  assert (E : run now1 loaded choose clicked = run now2 loaded choose clicked).
  { unfold run, main, CURRENT_YEAR. rewrite H. reflexivity. }
  split; [exact E | rewrite E; reflexivity].
Qed.

Lemma same_year_same_prediction_witness :
  dt_year now_2026 = dt_year new_years_eve /\
  run now_2026 (Some sample_model) (default_form 2026) true =
  run new_years_eve (Some sample_model) (default_form 2026) true /\
  shown_prices (run now_2026 (Some sample_model) (default_form 2026) true) =
  shown_prices (run new_years_eve (Some sample_model) (default_form 2026) true).
Proof.
  split; [reflexivity|].
  apply (same_year_same_prediction now_2026 new_years_eve (Some sample_model)
           (default_form 2026) true).
  reflexivity.
Defined.

(** C8 counterexample: the same inputs and model, one second apart across
    New Year, give two different prices when the model uses [Car_Age]. *)
Lemma prediction_changes_across_new_year :
  ~ (forall now1 now2 m choose,
       shown_prices (run now1 (Some m) choose true) =
       shown_prices (run now2 (Some m) choose true)).
Proof.
  intros H.
  specialize (H new_years_eve new_years_day sample_model (default_form 2026)).
  vm_compute in H. discriminate.
Qed.

Lemma ni_admits_Z (label : string) (lo hi v : Z) (d : Q) :
  ni_admits (mkNumberInput label (inject_Z lo) (inject_Z hi) d) (inject_Z v) = true ->
  (lo <= v <= hi)%Z.
Proof.
  unfold ni_admits. simpl. intros H. apply andb_prop in H as [H1 H2].
  apply Qle_bool_iff in H1, H2. unfold Qle in *. simpl in *. lia.
Qed.

Lemma ni_admits_Q (label : string) (lo hi d v : Q) :
  ni_admits (mkNumberInput label lo hi d) v = true -> (lo <= v <= hi)%Q.
Proof.
  unfold ni_admits. simpl. intros H. apply andb_prop in H as [H1 H2].
  apply Qle_bool_iff in H1, H2. split; assumption.
Qed.

(** C3: deriving [BHP_per_CC] never raises a division error: for every
    form the ratio is a float (possibly [inf] or NaN).  For every form the
    widgets of [car_price_app.py] admit, the denominator [Engine] is
    nonzero (the Engine widget starts at 600), so the zero-denominator case
    never arises there (a 0 result is vacuously required) and the ratio is
    the finite quotient [Power / Engine]. *)
Theorem bhp_per_cc_total (cy : Z) (brands : list string) (f : form) :
  (exists v, col (derive cy f) "BHP_per_CC" = VFloat v) /\
  (collected cy brands f = true ->
     engine_cc f <> 0%Z /\
     (engine_cc f = 0%Z -> col (derive cy f) "BHP_per_CC" = VFloat (Fin 0)) /\
     col (derive cy f) "BHP_per_CC" =
       VFloat (Fin (power_bhp f / inject_Z (engine_cc f)))).
Proof.
  destruct (bhp_per_cc_division cy f) as [Hinf [Hnan [Hfin Hadm]]].
  split.
  - unfold derive, col, raw_data. cbn -[series_div]. unfold series_div.
    destruct (Qeq_bool (inject_Z (engine_cc f)) 0);
      [destruct (Qlt_le_dec 0 (power_bhp f)); [|destruct (Qeq_bool (power_bhp f) 0)]|];
      eexists; reflexivity.
  - unfold collected. intros H.
    repeat match type of H with
           | (_ && _) = true => let H' := fresh "Hw" in apply andb_prop in H as [H H']
           end.
    match goal with
    | Hw : ni_admits engine_input _ = true |- _ => pose proof (Hadm Hw) as Hne
    end.
    split; [exact Hne|]. split; [intros E; contradiction|]. exact (Hfin Hne).
Qed.

Lemma bhp_per_cc_total_witness :
  collected 2026 default_brands sample_form = true /\
  engine_cc sample_form <> 0%Z /\
  (engine_cc sample_form = 0%Z ->
     col (derive 2026 sample_form) "BHP_per_CC" = VFloat (Fin 0)) /\
  col (derive 2026 sample_form) "BHP_per_CC" =
    VFloat (Fin (power_bhp sample_form / inject_Z (engine_cc sample_form))).
Proof.
  split; [vm_compute; reflexivity|].
  apply (proj2 (bhp_per_cc_total 2026 default_brands sample_form)).
  vm_compute. reflexivity.
Defined.

(** C9 (as the code does it): every numeric value the widgets of
    [car_price_app.py] let through lies in the widget's inclusive bounds:
    Year in [[1990, CURRENT_YEAR]], Kilometers in [[0, 500000]], Mileage in
    [[5.0, 50.0]], Engine in [[600, 6000]], Power in [[20.0, 800.0]] and
    Seats in [[2, 10]]; their defaults are 2015, 50000, 18.0, 1500, 100.0
    and 5.  No Tax field is collected. *)
Theorem collected_within_widget_bounds (cy : Z) (brands : list string) (f : form) :
  collected cy brands f = true ->
  (1990 <= year f <= cy)%Z /\ (0 <= km_driven f <= 500000)%Z /\
  (inject_Z 5 <= mileage f <= inject_Z 50)%Q /\
  (600 <= engine_cc f <= 6000)%Z /\
  (inject_Z 20 <= power_bhp f <= inject_Z 800)%Q /\
  (2 <= seats f <= 10)%Z /\
  ni_value (year_input cy) = inject_Z 2015 /\ ni_value km_input = inject_Z 50000 /\
  ni_value mileage_input = inject_Z 18 /\ ni_value engine_input = inject_Z 1500 /\
  ni_value power_input = inject_Z 100 /\ ni_value seats_input = inject_Z 5.
Proof.
  unfold collected, year_input, km_input, mileage_input, engine_input,
    power_input, seats_input.
  intros H.
  repeat match goal with
         | H : (_ && _) = true |- _ => apply andb_prop in H as [? ?]
         | H : ni_admits (mkNumberInput _ (inject_Z _) (inject_Z _) _) (inject_Z _) = true
           |- _ => apply ni_admits_Z in H
         | H : ni_admits (mkNumberInput _ _ _ _) _ = true |- _ => apply ni_admits_Q in H
         end.
  repeat split; solve [lia | tauto | reflexivity].
Qed.

Lemma collected_within_widget_bounds_witness :
  collected 2026 default_brands (default_form 2026 default_brands) = true /\
  (1990 <= year (default_form 2026 default_brands) <= 2026)%Z /\
  (0 <= km_driven (default_form 2026 default_brands) <= 500000)%Z /\
  (inject_Z 5 <= mileage (default_form 2026 default_brands) <= inject_Z 50)%Q /\
  (600 <= engine_cc (default_form 2026 default_brands) <= 6000)%Z /\
  (inject_Z 20 <= power_bhp (default_form 2026 default_brands) <= inject_Z 800)%Q /\
  (2 <= seats (default_form 2026 default_brands) <= 10)%Z /\
  ni_value (year_input 2026) = inject_Z 2015 /\ ni_value km_input = inject_Z 50000 /\
  ni_value mileage_input = inject_Z 18 /\ ni_value engine_input = inject_Z 1500 /\
  ni_value power_input = inject_Z 100 /\ ni_value seats_input = inject_Z 5.
Proof.
  split; [vm_compute; reflexivity|].
  apply (collected_within_widget_bounds 2026 default_brands (default_form 2026 default_brands)).
  vm_compute. reflexivity.
Defined.

(** C9 counterexample: the Mileage widget accepts 45 kmpl, above 40.0. *)
Lemma mileage_above_40_collected :
  ~ (forall cy brands f, collected cy brands f = true -> (mileage f <= inject_Z 40)%Q).
Proof.
  intros H.
  specialize (H 2026%Z default_brands form_mileage_45 eq_refl).
  unfold Qle in H. simpl in H. lia.
Qed.

(** C10 (evaluated at the failing input): for trained columns holding
    [Brand_Brand_X], the code's [str.replace] removes both occurrences of
    ["Brand_"] and lists ["X"], where removing the prefix lists
    ["Brand_X"]; choosing ["X"] then encodes as [Brand_X], a column the
    model does not have, so the model's [Brand_Brand_X] column stays 0.
    Without [feature_names_in_] the default list is used, with a warning. *)
Theorem brand_extraction_replace_all :
  brands_of_features features_brand_in_name = ["Audi"; "X"] /\
  brands_by_prefix_removal features_brand_in_name = ["Audi"; "Brand_X"] /\
  ~ In (indicator "Brand" "X") features_brand_in_name /\
  align 2026 (mkForm (Some "X") 2018 40000 "Diesel" "Manual" "First"
                (inject_Z 20) 1200 (inject_Z 85) 5) features_brand_in_name =
  Ok [("Year", VInt 2018); ("Car_Age", VInt 8);
      ("Brand_Audi", VInt 0); ("Brand_Brand_X", VInt 0)] /\
  (forall m t, feature_names_in_ m = None ->
     extract_brands_from_model m t =
     ((t ++ [StWarning "Could not extract brands automatically. Using default list."])%list,
      Ok default_brands)).
Proof.
  split; [reflexivity|]. split; [reflexivity|].
  split; [simpl; intuition discriminate|].
  split; [reflexivity|].
  intros m t. apply extract_brands_absent.
Qed.

(** ** Further properties of the code *)

(** *** [sorted] *)

Definition str_le (a b : string) : Prop := String.leb a b = true.

Lemma ltb_true_leb (x y : string) : String.ltb x y = true -> str_le x y.
Proof.
  unfold str_le, String.ltb, String.leb. destruct (String.compare x y); easy.
Qed.

Lemma ltb_false_leb (x y : string) : String.ltb x y = false -> str_le y x.
Proof.
  unfold str_le, String.ltb, String.leb. rewrite (String.compare_antisym y x).
  destruct (String.compare x y); easy.
Qed.

Lemma insert_sorted_perm (x : string) (l : list string) :
  Permutation (x :: l) (insert_sorted x l).
Proof.
  induction l as [|y l IH]; simpl; [reflexivity|].
  destruct (String.ltb x y); [reflexivity|].
  transitivity (y :: x :: l); [apply perm_swap | apply perm_skip, IH].
Qed.

Lemma insert_sorted_hdrel (a x : string) (l : list string) :
  HdRel str_le a l -> str_le a x -> HdRel str_le a (insert_sorted x l).
Proof.
  intros Hd Hax. destruct l as [|y l]; simpl; [constructor; exact Hax|].
  destruct (String.ltb x y); constructor; [exact Hax|].
  inversion Hd; assumption.
Qed.

Lemma insert_sorted_sorted (x : string) (l : list string) :
  Sorted str_le l -> Sorted str_le (insert_sorted x l).
Proof.
  induction l as [|y l IH]; simpl; intros H; [repeat constructor|].
  destruct (String.ltb x y) eqn:E.
  - constructor; [exact H | constructor; apply ltb_true_leb, E].
  - inversion H as [|? ? Hs Hd]; subst.
    constructor; [apply IH, Hs|].
    apply insert_sorted_hdrel; [exact Hd | apply ltb_false_leb, E].
Qed.

Lemma py_sorted_spec (l : list string) :
  Sorted str_le (py_sorted l) /\ Permutation l (py_sorted l).
Proof.
  induction l as [|x l [Hs Hp]]; simpl; [split; constructor|].
  split; [apply insert_sorted_sorted, Hs|].
  transitivity (x :: py_sorted l); [apply perm_skip, Hp | apply insert_sorted_perm].
Qed.

(** *** [str.replace('Brand_', '')] *)

Lemma remove_all_fuel_no_occurrence (n : nat) (pat s : string) :
  occurs pat s = false -> remove_all_fuel n pat s = s.
Proof.
  revert s. induction n as [|n IH]; intros s H; [reflexivity|].
  destruct s as [|c s]; [reflexivity|].
  cbn [occurs] in H. apply orb_false_iff in H as [H1 H2].
  cbn [remove_all_fuel]. rewrite H1. f_equal. apply IH, H2.
Qed.

Lemma substring_0_length (s : string) : substring 0 (String.length s) s = s.
Proof. induction s as [|c s IH]; simpl; congruence. Qed.

Lemma prefix_split (p f : string) : String.prefix p f = true -> exists b, f = p ++ b.
Proof.
  revert f. induction p as [|a p IH]; intros f H; [exists f; reflexivity|].
  destruct f as [|a' f]; simpl in H; [discriminate|].
  destruct (ascii_dec a a') as [<- | _]; [|discriminate].
  destruct (IH f H) as [b ->]. exists b. reflexivity.
Qed.

Lemma prefix_app (q b : string) : String.prefix q (q ++ b) = true.
Proof.
  induction q as [|a q IH]; simpl; [destruct b; reflexivity|].
  destruct (ascii_dec a a); [exact IH | contradiction].
Qed.

Lemma substring_app (q b : string) :
  substring (String.length q) (String.length (q ++ b) - String.length q) (q ++ b) = b.
Proof.
  induction q as [|a q IH]; simpl; [rewrite Nat.sub_0_r; apply substring_0_length | exact IH].
Qed.

Lemma remove_all_fuel_step (n : nat) (pat : string) (c : ascii) (s : string) :
  remove_all_fuel (S n) pat (String c s) =
  if String.prefix pat (String c s)
  then remove_all_fuel n pat (substring (String.length pat)
                                (String.length (String c s) - String.length pat)
                                (String c s))
  else String c (remove_all_fuel n pat s).
Proof. reflexivity. Qed.

(** A leading [pat] followed by a [pat]-free rest: [replace] strips the
    prefix alone. *)
Lemma remove_all_fuel_prefix (n : nat) (a : ascii) (p b : string) :
  occurs (String a p) b = false ->
  remove_all_fuel (S n) (String a p) (String a p ++ b) = b.
Proof.
  intros H.
  change (String a p ++ b) with (String a (p ++ b)).
  rewrite remove_all_fuel_step.
  change (String a (p ++ b)) with (String a p ++ b).
  rewrite prefix_app, substring_app.
  apply remove_all_fuel_no_occurrence, H.
Qed.

Lemma replace_brand_prefix (b : string) :
  occurs brand_prefix b = false -> py_replace_empty brand_prefix (brand_prefix ++ b) = b.
Proof.
  intros H. unfold py_replace_empty, brand_prefix.
  apply (remove_all_fuel_prefix (String.length ("rand_" ++ b)) "B" "rand_" b), H.
Qed.

Lemma brands_roundtrip (fs : list string) :
  (forall b, In (brand_prefix ++ b) fs -> occurs brand_prefix b = false) ->
  forall b, In b (brands_of_features fs) <-> In (brand_prefix ++ b) fs.
Proof.
  intros H b. unfold brands_of_features.
  destruct (py_sorted_spec (map (py_replace_empty brand_prefix)
                              (filter (String.prefix brand_prefix) fs))) as [_ Hp].
  split.
  - intros Hin. apply (Permutation_in _ (Permutation_sym Hp)) in Hin.
    apply in_map_iff in Hin as [f [Hf Hin]]. apply filter_In in Hin as [Hin Hpre].
    destruct (prefix_split _ _ Hpre) as [b' ->].
    rewrite (replace_brand_prefix b' (H b' Hin)) in Hf. subst b'. exact Hin.
  - intros Hin. apply (Permutation_in _ Hp). apply in_map_iff.
    exists (brand_prefix ++ b). split; [apply replace_brand_prefix, H, Hin|].
    apply filter_In. split; [exact Hin | apply prefix_app].
Qed.

Ltac brand_names_clean :=
  let b := fresh "b" in let Hin := fresh "Hin" in
  intros b Hin; simpl in Hin;
  repeat destruct Hin as [Hin | Hin]; try contradiction; try discriminate Hin;
  injection Hin; intros; subst; reflexivity.

(** X1: when the model exposes its feature names, [extract_brands_from_model]
    returns, without a warning, a list sorted in string order that is a
    permutation of the cleaned names of the ['Brand_'] features: one entry
    per such feature, none dropped, none added. *)
Theorem extract_brands_sorted_perm (m : model) (fs : list string) (t : trace) :
  feature_names_in_ m = Some fs ->
  exists brands,
    extract_brands_from_model m t = (t, Ok brands) /\
    Sorted str_le brands /\
    Permutation (map (py_replace_empty brand_prefix)
                   (filter (String.prefix brand_prefix) fs)) brands.
Proof.
  intros H. exists (brands_of_features fs).
  split; [apply extract_brands_present, H|]. apply py_sorted_spec.
Qed.

Lemma extract_brands_sorted_perm_witness :
  feature_names_in_ sample_model = Some sample_schema /\
  exists brands,
    extract_brands_from_model sample_model [] = ([], Ok brands) /\
    Sorted str_le brands /\
    Permutation (map (py_replace_empty brand_prefix)
                   (filter (String.prefix brand_prefix) sample_schema)) brands.
Proof.
  split; [reflexivity|]. apply (extract_brands_sorted_perm sample_model sample_schema []).
  reflexivity.
Defined.

(** X2: when no trained brand name itself contains ["Brand_"], the brands
    offered are exactly those whose indicator column [Brand_<brand>] the
    model was trained on. *)
Theorem offered_brands_are_trained_indicators (m : model) (fs : list string) (t : trace) :
  feature_names_in_ m = Some fs ->
  (forall b, In (brand_prefix ++ b) fs -> occurs brand_prefix b = false) ->
  exists brands,
    extract_brands_from_model m t = (t, Ok brands) /\
    forall b, In b brands <-> In (indicator "Brand" b) fs.
Proof.
  intros Hm Hclean. exists (brands_of_features fs).
  split; [apply extract_brands_present, Hm|].
  intros b. apply (brands_roundtrip fs Hclean b).
Qed.

Lemma offered_brands_are_trained_indicators_witness :
  (feature_names_in_ sample_model = Some sample_schema /\
   (forall b, In (brand_prefix ++ b) sample_schema -> occurs brand_prefix b = false)) /\
  exists brands,
    extract_brands_from_model sample_model [] = ([], Ok brands) /\
    forall b, In b brands <-> In (indicator "Brand" b) sample_schema.
Proof.
  assert (Hc : forall b, In (brand_prefix ++ b) sample_schema ->
                         occurs brand_prefix b = false) by brand_names_clean.
  split; [split; [reflexivity | exact Hc]|].
  apply (offered_brands_are_trained_indicators sample_model sample_schema []);
    [reflexivity | exact Hc].
Defined.

(** X3: for such a model, when the user picks one of the offered brands,
    the row sent to [predict] has that brand's indicator set ([True]) and
    the indicator of every other offered brand at 0. *)
Theorem chosen_brand_indicator_set (now : datetime) (m : model) (fs : list string)
    (choose : list string -> form) (b : string) :
  feature_names_in_ m = Some fs ->
  (forall b', In (brand_prefix ++ b') fs -> occurs brand_prefix b' = false) ->
  brand (choose (brands_of_features fs)) = Some b ->
  In b (brands_of_features fs) ->
  exists r,
    predict_calls (run now (Some m) choose true) = [r] /\
    row_get r (indicator "Brand" b) = Some (VBool true) /\
    forall b', In b' (brands_of_features fs) -> b' <> b ->
      row_get r (indicator "Brand" b') = Some (VInt 0).
Proof.
  intros Hm Hclean Hb Hin.
  set (f := choose (brands_of_features fs)).
  exists (reindex_cells (get_dummies (derive (CURRENT_YEAR now) f)) fs).
  split.
  - unfold run, main, bind at 1. rewrite (extract_brands_present _ _ _ Hm).
    rewrite (calculate_price_present _ _ _ _ _ Hm). fold f.
    destruct (predict m _); reflexivity.
  - assert (Hcol : forall b', In b' (brands_of_features fs) ->
              In (indicator "Brand" b') fs)
      by (intros b' Hb'; apply (brands_roundtrip fs Hclean b'), Hb').
    split.
    + rewrite (row_get_reindex_cells_in _ _ _ (Hcol b Hin)), get_dummies_derive.
      fold f in Hb. rewrite Hb. unfold indicator. cbn -[series_div].
      rewrite String.eqb_refl. reflexivity.
    + intros b' Hin' Hne.
      rewrite (row_get_reindex_cells_in _ _ _ (Hcol b' Hin')), get_dummies_derive.
      fold f in Hb. rewrite Hb. unfold indicator. cbn -[series_div].
      apply String.eqb_neq in Hne. rewrite Hne. reflexivity.
Qed.

Lemma chosen_brand_indicator_set_witness :
  (feature_names_in_ sample_model = Some sample_schema /\
   (forall b', In (brand_prefix ++ b') sample_schema -> occurs brand_prefix b' = false) /\
   brand ((fun _ => sample_form) (brands_of_features sample_schema)) = Some "Maruti" /\
   In "Maruti" (brands_of_features sample_schema)) /\
  exists r,
    predict_calls (run now_2026 (Some sample_model) (fun _ => sample_form) true) = [r] /\
    row_get r (indicator "Brand" "Maruti") = Some (VBool true) /\
    forall b', In b' (brands_of_features sample_schema) -> b' <> "Maruti" ->
      row_get r (indicator "Brand" b') = Some (VInt 0).
Proof.
  assert (Hc : forall b, In (brand_prefix ++ b) sample_schema ->
                         occurs brand_prefix b = false) by brand_names_clean.
  split; [split; [reflexivity | split; [exact Hc | split; [reflexivity | simpl; tauto]]]|].
  apply (chosen_brand_indicator_set now_2026 sample_model sample_schema
           (fun _ => sample_form) "Maruti");
    [reflexivity | exact Hc | reflexivity | simpl; tauto].
Defined.

(** X4: the cleaning step [f.replace('Brand_', '')] leaves a name without
    ["Brand_"] unchanged, and on ["Brand_" ++ b] with no further ["Brand_"]
    in [b] it removes exactly the prefix. *)
Theorem replace_strips_only_prefix (s b : string) :
  (occurs brand_prefix s = false -> py_replace_empty brand_prefix s = s) /\
  (occurs brand_prefix b = false ->
     py_replace_empty brand_prefix (brand_prefix ++ b) = b).
Proof.
  split; [intros H; apply remove_all_fuel_no_occurrence, H | apply replace_brand_prefix].
Qed.

Lemma replace_strips_only_prefix_witness :
  py_replace_empty brand_prefix "Audi" = "Audi" /\
  py_replace_empty brand_prefix (brand_prefix ++ "Audi") = "Audi".
Proof.
  destruct (replace_strips_only_prefix "Audi" "Audi") as [H1 H2].
  split; [apply H1; reflexivity | apply H2; reflexivity].
Defined.

(** X5: when the model file is missing, or [joblib.load] raises, the run
    shows that one error and stops: no brand list, no widgets' effect, no
    call of [predict], whether or not the button was pressed; when the
    model loads, the run is the one of [main] on the loaded model. *)
Theorem load_failure_stops_script (now : datetime) (load : result model)
    (choose : list string -> form) (clicked : bool) :
  run_script now false load choose clicked =
    [StError "Critical Error: 'car_price_model_rf.pkl' not found."] /\
  (forall e, run_script now true (Raise e) choose clicked =
               [StError ("Error loading model: " ++ exn_msg e)]) /\
  (forall m, run_script now true (Ok m) choose clicked = run now (Some m) choose clicked).
Proof.
  split; [reflexivity|]. split; [intros e; reflexivity|].
  intros m. reflexivity.
Qed.

(** X6: when the button is not pressed, [predict] is never called and the
    page holds nothing but, for a model without feature names, the
    fallback warning of the brand list. *)
Theorem no_click_no_prediction (now : datetime) (m : model) (choose : list string -> form) :
  predict_calls (run now (Some m) choose false) = [] /\
  run now (Some m) choose false =
    match feature_names_in_ m with
    | Some _ => []
    | None => [StWarning "Could not extract brands automatically. Using default list."]
    end.
Proof.
  unfold run, main, bind.
  destruct (feature_names_in_ m) as [fs|] eqn:Hm.
  - rewrite (extract_brands_present _ _ _ Hm). split; reflexivity.
  - rewrite (extract_brands_absent _ _ Hm). split; reflexivity.
Qed.

(** X7: when [predict] succeeds on the aligned row, the page shows exactly
    the call, the price it returned, the debug list of aligned columns,
    which is the model's own column list, and the row sent. *)
Theorem success_page (now : datetime) (m : model) (schema : list string)
    (choose : list string -> form) (r : row) (p : Q) :
  feature_names_in_ m = Some schema ->
  align (CURRENT_YEAR now) (choose (brands_of_features schema)) schema = Ok r ->
  predict m r = Ok p ->
  run now (Some m) choose true =
    [PredictCall r; StSuccess p; StWriteCols "Aligned Features:" schema;
     StWrite "Data sent to model:" r].
Proof.
  intros Hm Ha Hp. rewrite align_ok in Ha. injection Ha as <-.
  unfold run, main, bind at 1. rewrite (extract_brands_present _ _ _ Hm).
  rewrite (calculate_price_present _ _ _ _ _ Hm), Hp.
  rewrite columns_reindex_cells. reflexivity.
Qed.

Lemma success_page_witness :
  (feature_names_in_ sample_model = Some sample_schema /\
   align (CURRENT_YEAR now_2026) ((fun _ => sample_form) (brands_of_features sample_schema))
     sample_schema = Ok (reindex_cells (get_dummies (derive 2026 sample_form)) sample_schema) /\
   predict sample_model (reindex_cells (get_dummies (derive 2026 sample_form)) sample_schema)
     = Ok (inject_Z 8)) /\
  run now_2026 (Some sample_model) (fun _ => sample_form) true =
    [PredictCall (reindex_cells (get_dummies (derive 2026 sample_form)) sample_schema);
     StSuccess (inject_Z 8); StWriteCols "Aligned Features:" sample_schema;
     StWrite "Data sent to model:"
       (reindex_cells (get_dummies (derive 2026 sample_form)) sample_schema)].
Proof.
  split; [split; [reflexivity | split; vm_compute; reflexivity]|].
  apply (success_page now_2026 sample_model sample_schema (fun _ => sample_form)).
  - reflexivity.
  - vm_compute. reflexivity.
  - vm_compute. reflexivity.
Defined.

Lemma get_dummies_cells_not_object (r : row) (c : string) (v : value) :
  row_get (get_dummies r) c = Some v -> is_object v = false.
Proof.
  assert (Hin : forall l c v, row_get l c = Some v -> In (c, v) l).
  { induction l as [|[c' v'] l IH]; simpl; intros c0 v0 H; [discriminate|].
    destruct (String.eqb_spec c0 c') as [-> | _];
      [injection H as <-; left; reflexivity | right; apply IH, H]. }
  intros H. apply Hin in H. unfold get_dummies in H. apply in_app_or in H as [H | H].
  - apply filter_In in H as [_ H]. simpl in H. apply negb_true_iff, H.
  - apply in_flat_map in H as [[c' v'] [_ H]]. simpl in H.
    destruct (is_object v'); [|contradiction].
    destruct v'; simpl in H; try contradiction.
    destruct H as [H | []]. injection H as _ <-. reflexivity.
Qed.

Lemma reindexed_cell_not_object (r : row) (c : string) :
  is_object (match row_get (get_dummies r) c with Some v => v | None => VInt 0 end) = false.
Proof.
  destruct (row_get (get_dummies r) c) as [v|] eqn:Hv; [|reflexivity].
  apply (get_dummies_cells_not_object _ _ _ Hv).
Qed.

(** X8: no string or [None] cell ever reaches the model: every cell of the
    aligned row is an int, a float or a bool; in particular a raw
    categorical column the model may list ([Fuel_Type], [Brand], ...) is
    sent as 0, not as the selected text. *)
Theorem aligned_cells_numeric (cy : Z) (f : form) (schema : list string) :
  exists r,
    align cy f schema = Ok r /\
    (forall c v, In (c, v) r -> is_object v = false) /\
    (forall c, In c ["Fuel_Type"; "Transmission"; "Owner_Type"; "Brand"] ->
       In c schema -> row_get r c = Some (VInt 0)).
Proof.
  eexists; split; [apply align_ok|]. split.
  - intros c v H. unfold reindex_cells in H. apply in_map_iff in H as [c' [E _]].
    injection E as _ <-. exact (reindexed_cell_not_object (derive cy f) c').
  - intros c Hc Hs. rewrite (row_get_reindex_cells_in _ _ _ Hs), get_dummies_derive.
    simpl in Hc. destruct Hc as [<- | [<- | [<- | [<- | []]]]];
      destruct (brand f); reflexivity.
Qed.

(** X9: the numeric inputs reach the model unchanged: each of [Year],
    [Kilometers_Driven], [Mileage], [Engine], [Power] and [Seats] that
    the model lists carries the entered value in the row sent to it. *)
Theorem numeric_inputs_pass_through (cy : Z) (f : form) (schema : list string) :
  exists r,
    align cy f schema = Ok r /\
    forall c, In c ["Year"; "Kilometers_Driven"; "Mileage"; "Engine"; "Power"; "Seats"] ->
      In c schema -> row_get r c = row_get (raw_data f) c.
Proof.
  eexists; split; [apply align_ok|].
  intros c Hc Hs. rewrite (row_get_reindex_cells_in _ _ _ Hs), get_dummies_derive.
  simpl in Hc. destruct Hc as [<- | [<- | [<- | [<- | [<- | [<- | []]]]]]]; reflexivity.
Qed.

Ltac admitted_bounds H :=
  repeat match type of H with
         | (_ && _) = true => let H' := fresh "Hw" in apply andb_prop in H as [H H']
         end;
  repeat match goal with
         | Hw : (_ && _) = true |- _ => let H' := fresh "Hw" in apply andb_prop in Hw as [Hw H']
         | Hw : ni_admits (mkNumberInput _ (inject_Z _) (inject_Z _) _) (inject_Z _) = true
           |- _ => apply ni_admits_Z in Hw
         | Hw : ni_admits (mkNumberInput _ _ _ _) _ = true |- _ => apply ni_admits_Q in Hw
         end.

(** X10: for every form the widgets of [car_price_app.py] admit, the
    derived features stay in range: [Car_Age] lies in
    [[0, CURRENT_YEAR - 1990]], and [BHP_per_CC] is a finite ratio in
    [[1/300, 4/3]] (Power in [[20, 800]] over Engine in [[600, 6000]]). *)
Theorem derived_features_in_range (cy : Z) (brands : list string) (f : form) :
  collected cy brands f = true ->
  col (derive cy f) "Car_Age" = VInt (cy - year f) /\
  (0 <= cy - year f <= cy - 1990)%Z /\
  exists q, col (derive cy f) "BHP_per_CC" = VFloat (Fin q) /\
            (1 # 300 <= q <= 4 # 3)%Q.
Proof.
  unfold collected, year_input, engine_input, power_input, mileage_input,
    km_input, seats_input.
  intros H. admitted_bounds H.
  split; [reflexivity|]. split; [lia|].
  exists (power_bhp f / inject_Z (engine_cc f)).
  assert (Hpos : (0 < inject_Z (engine_cc f))%Q) by (unfold Qlt; simpl; lia).
  split.
  - unfold derive, col, raw_data. cbn -[series_div]. unfold series_div.
    replace (Qeq_bool (inject_Z (engine_cc f)) 0) with false; [reflexivity|].
    symmetry. apply Bool.not_true_iff_false. intros Hq.
    apply Qeq_bool_iff in Hq. unfold Qeq in Hq. simpl in Hq. lia.
  - split.
    + apply Qle_shift_div_l; [exact Hpos|].
      apply Qle_trans with (inject_Z 20); [unfold Qle, Qmult, inject_Z; cbn [Qnum Qden]; lia | tauto].
    + apply Qle_shift_div_r; [exact Hpos|].
      apply Qle_trans with (inject_Z 800); [tauto | unfold Qle, Qmult, inject_Z; cbn [Qnum Qden]; lia].
Qed.

Lemma derived_features_in_range_witness :
  collected 2026 default_brands (default_form 2026 default_brands) = true /\
  col (derive 2026 (default_form 2026 default_brands)) "Car_Age" =
    VInt (2026 - year (default_form 2026 default_brands)) /\
  (0 <= 2026 - year (default_form 2026 default_brands) <= 2026 - 1990)%Z /\
  exists q, col (derive 2026 (default_form 2026 default_brands)) "BHP_per_CC" = VFloat (Fin q) /\
            (1 # 300 <= q <= 4 # 3)%Q.
Proof.
  split; [vm_compute; reflexivity|].
  apply (derived_features_in_range 2026 default_brands (default_form 2026 default_brands)).
  vm_compute. reflexivity.
Defined.

(** X11: the checkpoint app sends [model.predict] its eleven raw columns
    as they are (categorical values as text, no one-hot encoding, no
    alignment with the model's columns, [Car_Age = 2025 - Year]); a
    failure of [predict] is caught and shown only as
    ["Prediction failed: " ++ str(e)], a success as the price. *)
Theorem ckpt_predict_page (m : model) (f : ckpt_form) (t : trace) :
  columns (ckpt_input_data f) =
    ["Year"; "Kilometers_Driven"; "Fuel_Type"; "Transmission"; "Owner_Type";
     "Mileage_num"; "Engine_num"; "Power_num"; "Seats"; "Tax"; "Car_Age"] /\
  row_get (ckpt_input_data f) "Fuel_Type" = Some (VStr (c_fuel_type f)) /\
  row_get (ckpt_input_data f) "Transmission" = Some (VStr (c_transmission f)) /\
  row_get (ckpt_input_data f) "Owner_Type" = Some (VStr (c_owner_type f)) /\
  row_get (ckpt_input_data f) "Car_Age" = Some (VInt (2025 - c_year f)) /\
  ckpt_predict_price m f t =
    match predict m (ckpt_input_data f) with
    | Ok p => ((t ++ [PredictCall (ckpt_input_data f); StSuccess p])%list, Ok tt)
    | Raise e => ((t ++ [PredictCall (ckpt_input_data f);
                         StError ("Prediction failed: " ++ exn_msg e)])%list, Ok tt)
    end.
Proof.
  do 5 (split; [reflexivity|]).
  unfold ckpt_predict_price, try_except, call_predict, bind, emit, lift.
  destruct (predict m (ckpt_input_data f)); unfold ret, raise; rewrite <- app_assoc; reflexivity.
Qed.

(** X12: in the checkpoint app every admitted Year lies in [[1990, 2025]],
    so the [Car_Age] it sends lies in [[0, 35]]. *)
Theorem ckpt_car_age_in_range (f : ckpt_form) :
  ckpt_collected f = true ->
  row_get (ckpt_input_data f) "Car_Age" = Some (VInt (ckpt_car_age (c_year f))) /\
  (0 <= ckpt_car_age (c_year f) <= 35)%Z.
Proof.
  unfold ckpt_collected, ckpt_year_input. intros H. admitted_bounds H.
  split; [reflexivity|]. unfold ckpt_car_age. lia.
Qed.

Lemma ckpt_car_age_in_range_witness :
  let f := mkCkptForm 2015 50000 "Petrol" "Manual" "First" (inject_Z 18) 1500
             (inject_Z 100) 5 (inject_Z 10) in
  ckpt_collected f = true /\
  row_get (ckpt_input_data f) "Car_Age" = Some (VInt (ckpt_car_age (c_year f))) /\
  (0 <= ckpt_car_age (c_year f) <= 35)%Z.
Proof.
  intros f. split; [vm_compute; reflexivity|].
  apply (ckpt_car_age_in_range f). vm_compute. reflexivity.
Defined.
